(** * react-native-calendar-kit: month grid and time-grid event geometry

    A shallow embedding of the month-grid renderer (MonthView), the
    month-page adapter (MonthViewBody), the time-grid event block
    (EventItem) and the page selection of the time-grid body
    (CalendarBody._renderTimeSlots), with the properties of their
    specification stated and proved against the embedded code.

    Conventions of the embedding.
    - Instants (millisecond epoch integers), day counts, indices and the
      overlap-column counters are [Z].
    - Minutes and pixel quantities are JS numbers; they are embedded as
      exact rationals [Q], and division by zero (Infinity/NaN in JS) is
      kept out of the theorems by a hypothesis on the denominator.  The
      theorems state nothing that the rounding of IEEE doubles undoes;
      where it matters the expression is also evaluated in doubles
      ([EventItemDoubles]).
    - Date/time values live in a zone of fixed offset, with days of 24
      hours; daylight-saving changes are outside the development.
    - JS truthiness is written out where the code relies on it
      ([truthyZ], [truthyQ]): [undefined], [0] and [NaN] are falsy.
    - Callbacks are functions into an arbitrary result type; an absent
      callback is [None]. *)

From Stdlib Require Import ZArith QArith Qminmax Lia Lqa List.
From stdpp Require Import base option list strings gmap.
From Equations Require Import Equations.
From Stdlib Require PrimFloat Uint63.
Import ListNotations.

Local Open Scope Z_scope.

(** ** JS helpers *)

(** [a % b] of JS on integers: the remainder has the sign of the dividend. *)
Definition js_rem (a b : Z) : Z := Z.rem a b.

(** Truthiness of an optional integer field. *)
Definition truthyZ (v : option Z) : bool :=
  match v with
  | Some n => negb (n =? 0)
  | None => false
  end.

(** Truthiness of an optional number field. *)
Definition truthyQ (v : option Q) : bool :=
  match v with
  | Some q => negb (Qeq_bool q 0)
  | None => false
  end.

(** [array[i]] of JS: [undefined] out of range. *)
Definition js_index {A : Type} (l : list A) (i : Z) : option A :=
  if i <? 0 then None else l !! Z.to_nat i.

(** The number held by a field found truthy. *)
Definition numZ (v : option Z) : Z := default 0 v.
Definition numQ (v : option Q) : Q := default 0%Q v.

(** Whether an optional prop is given. *)
Definition is_Some_b {A : Type} (v : option A) : bool :=
  match v with Some _ => true | None => false end.

(** [a < b] on numbers. *)
Definition Qltb (a b : Q) : bool := negb (Qle_bool b a).

(** ** Date utilities *)

Module Luxon.

(** Modelled from the spec: [MILLISECONDS_IN_DAY] of the constants
    module, whose source is not available. *)
Definition MILLISECONDS_IN_DAY : Z := 86400000.

(** A zone is represented by its UTC offset in milliseconds. *)
Definition Zone : Type := Z.

(** Modelled from the spec: the calendar date/time value returned by the
    date utilities ("a timezone-aware calendar date/time value"), whose
    source is not available.  A value is the wall-clock millisecond
    count since 1970-01-01T00:00 in its zone, together with the zone.
    Zones have a fixed offset; daylight-saving transitions are not
    modelled. *)
Record DateTime : Type := mkDateTime {
  wall : Z;
  zone : Zone
}.

Definition fromMillis (z : Zone) (ts : Z) : DateTime :=
  {| wall := ts + z; zone := z |}.

Definition toMillis (dt : DateTime) : Z := wall dt - zone dt.

(** Number of the local calendar day, counted from 1970-01-01. *)
Definition dayNumber (dt : DateTime) : Z := wall dt / MILLISECONDS_IN_DAY.

(** Proleptic Gregorian date of a day number (year, month 1..12, day). *)
Definition civil_from_days (n : Z) : Z * Z * Z :=
  let z := n + 719468 in
  let era := z / 146097 in
  let doe := z - era * 146097 in
  let yoe := (doe - doe / 1460 + doe / 36524 - doe / 146096) / 365 in
  let y := yoe + era * 400 in
  let doy := doe - (365 * yoe + yoe / 4 - yoe / 100) in
  let mp := (5 * doy + 2) / 153 in
  let d := doy - (153 * mp + 2) / 5 + 1 in
  let m := if mp <? 10 then mp + 3 else mp - 9 in
  (if m <=? 2 then y + 1 else y, m, d).

(** Day number of a Gregorian date. *)
Definition days_from_civil (y m d : Z) : Z :=
  let y' := if m <=? 2 then y - 1 else y in
  let era := y' / 400 in
  let yoe := y' - era * 400 in
  let mp := if 2 <? m then m - 3 else m + 9 in
  let doy := (153 * mp + 2) / 5 + d - 1 in
  let doe := yoe * 365 + yoe / 4 - yoe / 100 + doy in
  era * 146097 + doe - 719468.

Definition year (dt : DateTime) : Z := (civil_from_days (dayNumber dt)).1.1.
Definition month (dt : DateTime) : Z := (civil_from_days (dayNumber dt)).1.2.
Definition day (dt : DateTime) : Z := (civil_from_days (dayNumber dt)).2.

(** ISO weekday: 1 is Monday, 7 is Sunday (1970-01-01 was a Thursday). *)
Definition weekday (dt : DateTime) : Z := (dayNumber dt + 3) mod 7 + 1.

(** [dt.startOf('day')]. *)
Definition startOf_day (dt : DateTime) : DateTime :=
  {| wall := dayNumber dt * MILLISECONDS_IN_DAY; zone := zone dt |}.

(** [dt.startOf('month')]. *)
Definition startOf_month (dt : DateTime) : DateTime :=
  {| wall := days_from_civil (year dt) (month dt) 1 * MILLISECONDS_IN_DAY;
     zone := zone dt |}.

(** [dt.plus({ days: n })] and [dt.minus({ days: n })]. *)
Definition plus_days (dt : DateTime) (n : Z) : DateTime :=
  {| wall := wall dt + n * MILLISECONDS_IN_DAY; zone := zone dt |}.

Definition minus_days (dt : DateTime) (n : Z) : DateTime :=
  {| wall := wall dt - n * MILLISECONDS_IN_DAY; zone := zone dt |}.

(** [dt.toISODate()]: the text YYYY-MM-DD, represented by the three
    numbers it prints (the code only compares two such texts). *)
Definition toISODate (dt : DateTime) : Z * Z * Z :=
  civil_from_days (dayNumber dt).

(** The [start] and [end] of an event: a numeric instant or a text. *)
Inductive DateType : Type :=
| Millis (ts : Z)
| ISO (text : string).

(** Outcome of a call that may throw. *)
Inductive attempt (A : Type) : Type :=
| Returns (v : A)
| Throws (error : string).
Arguments Returns {A} v.
Arguments Throws {A} error.

(** What a parse gives back when it returns: a date/time value, or the
    value that Luxon marks invalid, with its reason, for a text that is
    not a date.  Luxon's parsers return the invalid value; they throw
    only when set to. *)
Inductive Parsed : Type :=
| Valid (dt : DateTime)
| Invalid (reason : string).

(** [toISODate()] of a parsed value: [null], here [None], when it is
    invalid. *)
Definition isoDate (p : Parsed) : option (Z * Z * Z) :=
  match p with
  | Valid dt => Some (toISODate dt)
  | Invalid _ => None
  end.

(** Modelled from the spec: what [parseDateTime] of the date utilities,
    whose source is not available, depends on: the zone used when the caller
    names none, and the parser of date texts, which for a text that is
    not a date returns the invalid value or throws. *)
Record DateEnv : Type := mkDateEnv {
  defaultZone : Zone;
  parseISO : string -> Zone -> attempt Parsed
}.

(** Modelled from the spec: [parseDateTime(date, { zone })], "parse a
    numeric instant or ISO string into a timezone-aware calendar
    date/time value". *)
Definition parseDateTime (env : DateEnv) (date : DateType)
    (opts : option Zone) : attempt Parsed :=
  let z := default (defaultZone env) opts in
  match date with
  | Millis ts => Returns (Valid (fromMillis z ts))
  | ISO text => parseISO env text z
  end.

(** [parseDateTime(unix)] on a numeric instant, where the code uses the
    result without a guard. *)
Definition parseUnix (env : DateEnv) (unix : Z) : DateTime :=
  fromMillis (defaultZone env) unix.

End Luxon.

Import Luxon.

(** ** Checking the Gregorian conversions over one era *)

(** The date of day [doe] of a 400-year era that starts on March 1:
    year of the era, month and day of the month. *)
Definition civil_of_doe (doe : Z) : Z * Z * Z :=
  let yoe := (doe - doe / 1460 + doe / 36524 - doe / 146096) / 365 in
  let doy := doe - (365 * yoe + yoe / 4 - yoe / 100) in
  let mp := (5 * doy + 2) / 153 in
  let d := doy - (153 * mp + 2) / 5 + 1 in
  let m := if mp <? 10 then mp + 3 else mp - 9 in
  (yoe, m, d).

(** Day of the era of the first day of month [m] in year [yoe] of the era. *)
Definition doe_of_month (yoe m : Z) : Z :=
  let mp := if 2 <? m then m - 3 else m + 9 in
  yoe * 365 + yoe / 4 - yoe / 100 + ((153 * mp + 2) / 5 + 1 - 1).

(** The check made for every day of an era: going to the first of the
    month and back gives day 1 of the same month and year, [d - 1] days
    earlier. *)
Definition month_start_ok (doe : Z) : bool :=
  let '(yoe, m, d) := civil_of_doe doe in
  let doe1 := doe_of_month yoe m in
  (0 <=? yoe) && (yoe <? 400) && (1 <=? m) && (m <=? 12) && (1 <=? d) && (d <=? 31)
  && (doe1 =? doe - (d - 1)) && (0 <=? doe1)
  && (let '(yoe1, m1, d1) := civil_of_doe doe1 in
      (yoe1 =? yoe) && (m1 =? m) && (d1 =? 1)).

Fixpoint all_from (f : Z -> bool) (n : nat) (k : Z) : bool :=
  match n with
  | O => true
  | S n' => f k && all_from f n' (k + 1)
  end.

(** ** Shared types (types.ts) *)

Module Types.

(** Modelled from the spec: the event record of the host, "unique
    identifier, start/end instants (string or numeric), display title,
    display color, title color"; its declaration is not available. *)
Record EventItem : Type := mkEventItem {
  id : string;
  start : DateType;
  end_ : DateType;
  title : string;
  color : option string;
  titleColor : option string
}.

(** Modelled from the spec: the private layout record of a packed event. *)
Record Internal : Type := mkInternal {
  duration : Q;
  startMinutes : option Q;
  startUnix : Z;
  total : option Z;
  index : option Z;
  columnSpan : option Z;
  widthPercentage : option Q;
  xOffsetPercentage : option Q;
  resourceIndex : option Z
}.

(** A packed event: the host's record enriched with [_internal]. *)
Record PackedEvent : Type := mkPackedEvent {
  record : EventItem;
  _internal : Internal
}.

(** An event object as a callback sees it: with or without the
    [_internal] block. *)
Inductive EventObject : Type :=
| WithInternal (p : PackedEvent)
| Stripped (e : EventItem).

(** The host's fields of an event object. *)
Definition fields (o : EventObject) : EventItem :=
  match o with
  | WithInternal p => record p
  | Stripped e => e
  end.

Definition has_internal (o : EventObject) : bool :=
  match o with
  | WithInternal _ => true
  | Stripped _ => false
  end.

End Types.

(** ** MonthView *)

Module MonthView.

Import Types.

(** One entry of the [days] array built by [monthData]. *)
Record DayCell : Type := mkDayCell {
  dateUnix : Z;
  date : DateTime;
  isCurrentMonth : bool;
  isToday : bool;
  events : list EventItem
}.

(** One [console.warn] call of the event filter. *)
Record Warning : Type := mkWarning {
  message : string;
  subject : DateType;
  caught : string
}.

(** What MonthView reads from the calendar, locale, now-indicator and
    timezone contexts. *)
Record Context : Type := mkContext {
  firstDay : Z;
  weekDayShort : list string;
  currentDateUnix : Z;
  timezone : Zone
}.

(** The callback given to [events.filter] for one day: the [try] block
    and its [catch]. *)
Definition keepEvent (env : DateEnv) (ctx : Context) (dayDate : DateTime)
    (event : EventItem) : bool * list Warning :=
  match parseDateTime env (start event) (Some (timezone ctx)) with
  | Returns eventDate =>
      (bool_decide (isoDate eventDate = Some (toISODate dayDate)), [])
  | Throws error =>
      (false, [mkWarning "Error parsing event date:" (start event) error])
  end.

(** [events.filter(...)], with the warnings it logs in order. *)
Fixpoint dayEvents (env : DateEnv) (ctx : Context) (dayDate : DateTime)
    (evs : list EventItem) : list EventItem * list Warning :=
  match evs with
  | [] => ([], [])
  | event :: rest =>
      let '(keep, w) := keepEvent env ctx dayDate event in
      let '(kept, ws) := dayEvents env ctx dayDate rest in
      (if keep then event :: kept else kept, w ++ ws)
  end.

(** The body of the [for] loop of [monthData] at index [i]. *)
Definition dayCell (env : DateEnv) (ctx : Context) (currentDate : DateTime)
    (startOfCalendar : DateTime) (evs : list EventItem) (i : Z)
    : DayCell * list Warning :=
  let dayDate := plus_days startOfCalendar i in
  let dayUnix := toMillis dayDate in
  let isCurrentMonth := bool_decide (month dayDate = month currentDate) in
  let isToday := bool_decide (toMillis dayDate = currentDateUnix ctx) in
  let '(evs', w) := dayEvents env ctx dayDate evs in
  (mkDayCell dayUnix dayDate isCurrentMonth isToday evs', w).

(** [for (let i = ...; i < 42; i++) { ...; days.push(...) }]: [n] is the
    number of iterations left, [i] the loop variable. *)
Fixpoint monthLoop (env : DateEnv) (ctx : Context) (currentDate : DateTime)
    (startOfCalendar : DateTime) (evs : list EventItem)
    (n : nat) (i : Z) (days : list DayCell) (console : list Warning)
    : list DayCell * list Warning :=
  match n with
  | O => (days, console)
  | S n' =>
      let '(cell, w) := dayCell env ctx currentDate startOfCalendar evs i in
      monthLoop env ctx currentDate startOfCalendar evs n' (i + 1)
        (days ++ [cell]) (console ++ w)
  end.

(** [startOfCalendar] of [monthData]. *)
Definition startOfCalendar (env : DateEnv) (ctx : Context) (unix : Z)
    : DateTime :=
  let currentDate := parseUnix env unix in
  let startOfMonth := startOf_month currentDate in
  let firstDayOfWeek := weekday startOfMonth in
  let diffToFirstDay := js_rem (firstDayOfWeek - firstDay ctx + 7) 7 in
  minus_days startOfMonth diffToFirstDay.

(** [monthData]: the 42 day cells, and the warnings logged meanwhile. *)
Definition monthData (env : DateEnv) (ctx : Context) (unix : Z)
    (evs : list EventItem) : list DayCell * list Warning :=
  let currentDate := parseUnix env unix in
  monthLoop env ctx currentDate (startOfCalendar env ctx unix) evs 42 0 [] [].

(** The loop of [weekDays]. *)
Fixpoint weekDaysLoop (ctx : Context) (n : nat) (i : Z)
    (days : list (option string)) : list (option string) :=
  match n with
  | O => days
  | S n' =>
      let dayIndex := js_rem (firstDay ctx + i - 1) 7 in
      weekDaysLoop ctx n' (i + 1) (days ++ [js_index (weekDayShort ctx) dayIndex])
  end.

(** [weekDays]: the seven header labels ([None] is [undefined]). *)
Definition weekDays (ctx : Context) : list (option string) :=
  weekDaysLoop ctx 7 0 [].

(** [array.slice(from, to)] for non-negative bounds. *)
Definition slice {A : Type} (l : list A) (from to : nat) : list A :=
  take (to - from) (drop from l).

(** [weeks]: six rows of seven cells. *)
Definition weeks (cells : list DayCell) : list (list DayCell) :=
  map (fun i => slice cells (i * 7) ((i + 1) * 7)) (seq 0 6).

Section Render.

Context {R Node : Type}.

(** Props of MonthView. *)
Record Props : Type := mkProps {
  p_dateUnix : Z;
  p_events : list EventItem;
  onPressDay : option (string -> R);
  onPressEvent : option (EventItem -> R);
  renderEvent : option (EventItem -> Node);
  renderDayItem : option (Z * bool -> Node)
}.

(** Props MonthView gives to each MonthDay. *)
Record MonthDayProps : Type := mkMonthDayProps {
  d_dateUnix : Z;
  d_isCurrentMonth : bool;
  d_isToday : bool;
  d_events : list EventItem;
  d_onPressDay : option (string -> R);
  d_onPressEvent : option (EventItem -> R);
  d_renderEvent : option (EventItem -> Node);
  d_renderDayItem : option (Z * bool -> Node)
}.

(** What MonthView renders: the header labels and the rows of day
    cells, with the console output of the render. *)
Record Rendered : Type := mkRendered {
  header : list (option string);
  grid : list (list MonthDayProps);
  console : list Warning
}.

Definition monthDay (props : Props) (cell : DayCell) : MonthDayProps :=
  {| d_dateUnix := dateUnix cell;
     d_isCurrentMonth := isCurrentMonth cell;
     d_isToday := isToday cell;
     d_events := events cell;
     d_onPressDay := onPressDay props;
     d_onPressEvent := onPressEvent props;
     d_renderEvent := renderEvent props;
     d_renderDayItem := renderDayItem props |}.

Definition render (env : DateEnv) (ctx : Context) (props : Props) : Rendered :=
  let '(cells, log) := monthData env ctx (p_dateUnix props) (p_events props) in
  {| header := weekDays ctx;
     grid := map (map (monthDay props)) (weeks cells);
     console := log |}.

End Render.

Arguments Props : clear implicits.
Arguments MonthDayProps : clear implicits.
Arguments Rendered : clear implicits.

End MonthView.

(** ** MonthViewBody *)

Module MonthViewBody.

Import Types.

Section Render.

Context {R Node : Type}.

(** Props of MonthViewBody. *)
Record Props : Type := mkProps {
  pageIndex : Z;
  dateUnix : Z;
  onPressDay : option (string -> R);
  onPressEvent : option (EventItem -> R);
  renderEvent : option (EventItem -> Node);
  renderDayItem : option (Z * bool -> Node)
}.

(** The element it returns: a container [View] around one MonthView. *)
Inductive Element : Type :=
| View (child : MonthView.Props R Node).

(** [const events: EventItem[] = []]. *)
Definition events : list EventItem := [].

Definition render (props : Props) : Element :=
  View {| MonthView.p_dateUnix := dateUnix props;
          MonthView.p_events := events;
          MonthView.onPressDay := onPressDay props;
          MonthView.onPressEvent := onPressEvent props;
          MonthView.renderEvent := renderEvent props;
          MonthView.renderDayItem := renderDayItem props |}.

(** The MonthView props inside the returned element. *)
Definition child (e : Element) : MonthView.Props R Node :=
  match e with View c => c end.

End Render.

Arguments Props : clear implicits.
Arguments Element : clear implicits.

End MonthViewBody.

(** ** EventItem (the time-grid event block) *)

Module EventItem.

Import Types.

(** What EventItem reads from the body context. *)
Record Body : Type := mkBody {
  start : Q;
  end_ : Q;
  rightEdgeSpacing : Q;
  overlapEventsSpacing : Q;
  columnWidth : Q;
  resourcePerPage : Z;
  enableResourceScroll : bool
}.

(** A value of the visible-dates map. *)
Record VisibleDate : Type := mkVisibleDate {
  diffDays : Z;
  unix : Z
}.

(** The vertical part of [data]: [(totalDuration, startMinutes)]. *)
Definition clamp (body : Body) (int : Internal) : Q * Q :=
  let maxDuration := (end_ body - start body)%Q in
  let newStart := (default 0%Q (startMinutes int) - start body)%Q in
  let totalDuration := Qmin (duration int) maxDuration in
  if Qltb newStart 0
  then ((totalDuration + newStart)%Q, 0%Q)
  else (totalDuration, newStart).

(** [parseDateTime(dayUnix).plus({ days: 1 }).toMillis()]. *)
Definition nextDay (env : DateEnv) (dayUnix : Z) : Z :=
  toMillis (plus_days (parseUnix env dayUnix) 1).

(** [parseDateTime(dayUnix).startOf('day').toMillis()]. *)
Definition dayStart (env : DateEnv) (dayUnix : Z) : Z :=
  toMillis (startOf_day (parseUnix env dayUnix)).

(** The two [for] loops of [data]: from [dayUnix] while it is before
    [bound], a day missing from [visibleDates] moves [diffDays] by
    [step] ([+1] in the first loop, [-1] in the second).  The number of
    days left before [bound] decreases at each turn. *)
Equations? walkDays (env : DateEnv) (visibleDates : gmap Z VisibleDate)
    (step bound dayUnix diffDays : Z) : Z
    by wf (Z.to_nat ((bound - dayUnix + MILLISECONDS_IN_DAY - 1) / MILLISECONDS_IN_DAY)) lt :=
  walkDays env visibleDates step bound dayUnix diffDays
    with decide (dayUnix < bound) => {
    | left _ =>
        walkDays env visibleDates step bound (nextDay env dayUnix)
          (match visibleDates !! dayStart env dayUnix with
           | Some _ => diffDays
           | None => diffDays + step
           end);
    | right _ => diffDays }.
Proof.
  unfold nextDay, toMillis, plus_days, parseUnix, fromMillis. cbn [wall zone].
  set (a := bound - dayUnix - 1).
  replace (bound - (dayUnix + defaultZone env + 1 * MILLISECONDS_IN_DAY
                    - defaultZone env) + MILLISECONDS_IN_DAY - 1)
    with a by lia.
  replace (bound - dayUnix + MILLISECONDS_IN_DAY - 1)
    with (a + 1 * MILLISECONDS_IN_DAY) by lia.
  rewrite Z.div_add by discriminate.
  assert (0 <= a / MILLISECONDS_IN_DAY) by (apply Z.div_pos; [lia | reflexivity]).
  lia.
Qed.

(** The horizontal part of [data]: [diffDays]. *)
Definition dataDiffDays (env : DateEnv) (visibleDates : gmap Z VisibleDate)
    (startUnix eventStartUnix : Z) : Z :=
  let diffDays := (eventStartUnix - startUnix) / MILLISECONDS_IN_DAY in
  if eventStartUnix <? startUnix
  then walkDays env visibleDates 1 startUnix eventStartUnix diffDays
  else walkDays env visibleDates (-1) eventStartUnix startUnix diffDays.


(** [data]. *)
Record Data : Type := mkData {
  totalDuration : Q;
  d_startMinutes : Q;
  d_diffDays : Z
}.

Definition data (env : DateEnv) (body : Body) (int : Internal)
    (startUnix : Z) (visibleDates : gmap Z VisibleDate) : Data :=
  let '(totalDuration, newStart) := clamp body int in
  {| totalDuration := totalDuration;
     d_startMinutes := newStart;
     d_diffDays := dataDiffDays env visibleDates startUnix (Types.startUnix int) |}.

(** [childColumns]. *)
Definition childColumns (body : Body) (totalResources : option Z) : Z :=
  if enableResourceScroll body then resourcePerPage body
  else if truthyZ totalResources && (0 <? numZ totalResources)
       then numZ totalResources
       else 1.

(** [availableWidth = columnWidth / childColumns - rightEdgeSpacing]. *)
Definition availableWidth (body : Body) (totalResources : option Z) : Q :=
  (columnWidth body / inject_Z (childColumns body totalResources)
   - rightEdgeSpacing body)%Q.

(** [widthPercent]. *)
Definition widthPercent (body : Body) (int : Internal)
    (totalResources : option Z) : Q :=
  if truthyZ (total int) && truthyZ (columnSpan int) then
    let total := inject_Z (numZ (total int)) in
    let columnSpan := inject_Z (numZ (columnSpan int)) in
    let availableWidth := availableWidth body totalResources in
    let totalColumns := (total - columnSpan)%Q in
    let overlapSpacing := (totalColumns * overlapEventsSpacing body / total)%Q in
    let eventWidth := (availableWidth / total * columnSpan - overlapSpacing)%Q in
    let percent := (eventWidth / availableWidth)%Q in
    percent
  else
    let basePercent :=
      if truthyQ (widthPercentage int)
      then (numQ (widthPercentage int) / 100)%Q
      else 1%Q in
    basePercent.

(** [eventWidth = widthPercent * availableWidth]. *)
Definition eventWidth (body : Body) (int : Internal)
    (totalResources : option Z) : Q :=
  (widthPercent body int totalResources * availableWidth body totalResources)%Q.

(** [eventPosX], for a given [data.diffDays]. *)
Definition eventPosX (body : Body) (int : Internal) (totalResources : option Z)
    (diffDays : Z) : Q :=
  let colWidth := (columnWidth body / inject_Z (childColumns body totalResources))%Q in
  let startOffset :=
    if truthyZ (resourceIndex int)
    then (inject_Z (if enableResourceScroll body
                    then js_rem (numZ (resourceIndex int)) (resourcePerPage body)
                    else numZ (resourceIndex int)) * colWidth)%Q
    else 0%Q in
  let left := (inject_Z diffDays * colWidth + startOffset)%Q in
  if truthyQ (xOffsetPercentage int)
  then (left + availableWidth body totalResources
               * (numQ (xOffsetPercentage int) / 100))%Q
  else if truthyZ (columnSpan int) && truthyZ (index int)
  then (left + (eventWidth body int totalResources + overlapEventsSpacing body)
               * (inject_Z (numZ (index int)) / inject_Z (numZ (columnSpan int))))%Q
  else left.

(** The style object of the container [View]; [height] and [top] are
    the numbers printed before the percent sign. *)
Record Style : Type := mkStyle {
  width : Q;
  left : Q;
  height : Q;
  top : Q
}.

Section Render.

Context {R Node Gesture : Type}.

(** Props of EventItem. *)
Record Props : Type := mkProps {
  event : PackedEvent;
  p_startUnix : Z;
  renderEvent : option (EventObject -> Node);
  onPressEvent : option (EventObject -> R);
  onLongPressEvent : option (EventObject -> Gesture -> R);
  isDragging : bool;
  visibleDates : gmap Z VisibleDate;
  totalResources : option Z
}.

(** [const { _internal, ...event } = eventInput]: the layout block, and
    the rest of the record. *)
Definition destructure (eventInput : PackedEvent) : Internal * EventObject :=
  (_internal eventInput, Stripped (record eventInput)).

(** [_onPressEvent]: [None] when nothing is called. *)
Definition _onPressEvent (props : Props) : option R :=
  match onPressEvent props with
  | Some onPressEvent => Some (onPressEvent (WithInternal (event props)))
  | None => None
  end.

(** [_onLongPressEvent], installed only when the callback is given. *)
Definition _onLongPressEvent (props : Props) (onLongPressEvent : EventObject -> Gesture -> R)
    (resEvent : Gesture) : R :=
  onLongPressEvent (WithInternal (event props)) resEvent.

(** The default content: the title text over the event's colour. *)
Record DefaultContent : Type := mkDefaultContent {
  backgroundColor : option string;
  titleColor_ : option string;
  title_ : string
}.

(** What EventItem renders. *)
Record Rendered : Type := mkRendered {
  style : Style;
  disabled : bool;
  onPress : option (unit -> option R);
  onLongPress : option (Gesture -> R);
  opacity : Q;
  custom : option Node;
  content : DefaultContent
}.

Definition render (env : DateEnv) (body : Body) (props : Props) : Rendered :=
  let eventInput := event props in
  let '(int, ev) := destructure eventInput in
  let timeRange := (end_ body - start body)%Q in
  let d := data env body int (p_startUnix props) (visibleDates props) in
  let eventWidth := eventWidth body int (totalResources props) in
  let eventPosX := eventPosX body int (totalResources props) (d_diffDays d) in
  {| style :=
       {| width := eventWidth;
          left := (eventPosX + 1)%Q;
          height := ((totalDuration d - 1) / timeRange * 100)%Q;
          top := ((d_startMinutes d + 1) / timeRange * 100)%Q |};
     disabled := negb (is_Some_b (onPressEvent props))
                 && negb (is_Some_b (onLongPressEvent props));
     onPress :=
       match onPressEvent props with
       | Some _ => Some (fun _ : unit => _onPressEvent props)
       | None => None
       end;
     onLongPress :=
       match onLongPressEvent props with
       | Some f => Some (_onLongPressEvent props f)
       | None => None
       end;
     opacity := if isDragging props then (1 # 2)%Q else 1%Q;
     custom :=
       match renderEvent props with
       | Some renderEvent => Some (renderEvent (WithInternal eventInput))
       | None => None
       end;
     content :=
       {| backgroundColor := color (fields ev);
          titleColor_ := titleColor (fields ev);
          title_ := title (fields ev) |} |}.

End Render.

Arguments Props : clear implicits.
Arguments Rendered : clear implicits.

End EventItem.

(** ** EventItem: the percentages as doubles *)

Module EventItemDoubles.

(** A whole number of minutes (below 2^63) as a JS number. *)
Definition number (n : Z) : PrimFloat.float :=
  PrimFloat.of_uint63 (Uint63.of_Z n).

(** [((data.startMinutes + 1) / timeRange) * 100], evaluated in IEEE
    doubles as the code does, on whole minutes. *)
Definition top (startMinutes timeRange : Z) : PrimFloat.float :=
  PrimFloat.mul
    (PrimFloat.div (PrimFloat.add (number startMinutes) (number 1))
                   (number timeRange))
    (number 100).

(** [((data.totalDuration - 1) / timeRange) * 100], likewise. *)
Definition height (totalDuration timeRange : Z) : PrimFloat.float :=
  PrimFloat.mul
    (PrimFloat.div (PrimFloat.sub (number totalDuration) (number 1))
                   (number timeRange))
    (number 100).

End EventItemDoubles.

(** ** CalendarBody: the page renderer of the date-paged list *)

Module CalendarBody.

Import Types.

Section RenderTimeSlots.

Context {R Node Draggable Resource : Type}.

(** [extraData]. *)
Record ExtraData : Type := mkExtraData {
  firstDay : Z;
  minDate : Z;
  columns : Z;
  visibleDatesArray : list Z;
  renderDraggableEvent : option Draggable;
  resources : option (list Resource)
}.

(** What [_renderTimeSlots] closes over. *)
Record Closure : Type := mkClosure {
  numberOfDays : Z;
  onPressDayNumber : option (string -> R);
  onPressEvent : option (EventItem -> R);
  renderEvent : option (EventItem -> Node)
}.

(** Props of BodyItem as [_renderTimeSlots] sets them. *)
Record BodyItemProps : Type := mkBodyItemProps {
  b_pageIndex : Z;
  b_startUnix : Z;
  b_renderDraggableEvent : option Draggable;
  b_resources : option (list Resource)
}.

(** The element of one page. *)
Inductive Page : Type :=
| MonthViewBodyElement (props : MonthViewBody.Props R Node)
| BodyItemElement (props : BodyItemProps).

(** [_renderTimeSlots(index, extra)]; [None] is the [null] page. *)
Definition _renderTimeSlots (c : Closure) (index : Z) (extra : ExtraData)
    : option Page :=
  let pageIndex := index * columns extra in
  let dateUnixByIndex := js_index (visibleDatesArray extra) pageIndex in
  if negb (truthyZ dateUnixByIndex) then None
  else if numberOfDays c =? 30 then
    Some (MonthViewBodyElement
            {| MonthViewBody.pageIndex := pageIndex;
               MonthViewBody.dateUnix := numZ dateUnixByIndex;
               MonthViewBody.onPressDay := onPressDayNumber c;
               MonthViewBody.onPressEvent := onPressEvent c;
               MonthViewBody.renderEvent := renderEvent c;
               MonthViewBody.renderDayItem := None |})
  else
    Some (BodyItemElement
            {| b_pageIndex := pageIndex;
               b_startUnix := numZ dateUnixByIndex;
               b_renderDraggableEvent := renderDraggableEvent extra;
               b_resources := resources extra |}).

End RenderTimeSlots.

Arguments ExtraData : clear implicits.
Arguments Closure : clear implicits.
Arguments BodyItemProps : clear implicits.
Arguments Page : clear implicits.

End CalendarBody.
(** ** Sample inputs *)

Definition env0 : DateEnv :=
  {| defaultZone := 0; parseISO := fun _ _ => Throws "unparsable" |}.

(** The date utilities over Luxon as it is: UTC, and a parser that
    returns the invalid value for a text that is not a date.  No text is
    a date for this parser. *)
Definition envLuxon : DateEnv :=
  {| defaultZone := 0; parseISO := fun _ _ => Returns (Invalid "unparsable") |}.

Definition ctxMonday : MonthView.Context :=
  {| MonthView.firstDay := 1;
     MonthView.weekDayShort := ["Mon"; "Tue"; "Wed"; "Thu"; "Fri"; "Sat"; "Sun"]%string;
     MonthView.currentDateUnix := 0;
     MonthView.timezone := 0 |}.


Definition ctxSunday : MonthView.Context :=
  {| MonthView.firstDay := 0;
     MonthView.weekDayShort := ["Mon"; "Tue"; "Wed"; "Thu"; "Fri"; "Sat"; "Sun"]%string;
     MonthView.currentDateUnix := 0;
     MonthView.timezone := 0 |}.

(** An event whose start is a text no parser accepts. *)
Definition badEvent : Types.EventItem :=
  {| Types.id := "e1"; Types.start := ISO "not a date"; Types.end_ := ISO "not a date";
     Types.title := "Broken"; Types.color := None; Types.titleColor := None |}.

Definition monthProps : MonthView.Props unit unit :=
  {| MonthView.p_dateUnix := 1707998400000;
     MonthView.p_events := [badEvent];
     MonthView.onPressDay := None;
     MonthView.onPressEvent := None;
     MonthView.renderEvent := None;
     MonthView.renderDayItem := None |}.

(** A packed one-hour event at 10:00 on day 0, in the first of two
    overlap columns. *)
Definition sampleInternal : Types.Internal :=
  {| Types.duration := 60%Q;
     Types.startMinutes := Some 600%Q;
     Types.startUnix := 0;
     Types.total := Some 2;
     Types.index := Some 0;
     Types.columnSpan := Some 1;
     Types.widthPercentage := None;
     Types.xOffsetPercentage := None;
     Types.resourceIndex := None |}.

Definition sampleEvent : Types.PackedEvent :=
  {| Types.record :=
       {| Types.id := "e2"; Types.start := Millis 36000000; Types.end_ := Millis 39600000;
          Types.title := "Meeting"; Types.color := Some "#3B82F6"%string;
          Types.titleColor := None |};
     Types._internal := sampleInternal |}.

(** The visible hours 00:00 to 24:00, columns 100 wide. *)
Definition sampleBody : EventItem.Body :=
  {| EventItem.start := 0%Q;
     EventItem.end_ := 1440%Q;
     EventItem.rightEdgeSpacing := 1%Q;
     EventItem.overlapEventsSpacing := 1%Q;
     EventItem.columnWidth := 100%Q;
     EventItem.resourcePerPage := 1;
     EventItem.enableResourceScroll := false |}.

(** Props whose callbacks return the event object they receive. *)
Definition recordingProps : EventItem.Props Types.EventObject unit unit :=
  {| EventItem.event := sampleEvent;
     EventItem.p_startUnix := 0;
     EventItem.renderEvent := None;
     EventItem.onPressEvent := Some (fun e => e);
     EventItem.onLongPressEvent := Some (fun e _ => e);
     EventItem.isDragging := false;
     EventItem.visibleDates := ∅;
     EventItem.totalResources := None |}.

(** Month mode with an empty array of visible dates. *)
Definition monthClosure : CalendarBody.Closure unit unit :=
  {| CalendarBody.numberOfDays := 30;
     CalendarBody.onPressDayNumber := None;
     CalendarBody.onPressEvent := None;
     CalendarBody.renderEvent := None |}.

Definition emptyExtra : CalendarBody.ExtraData unit unit :=
  {| CalendarBody.firstDay := 1;
     CalendarBody.minDate := 0;
     CalendarBody.columns := 1;
     CalendarBody.visibleDatesArray := [];
     CalendarBody.renderDraggableEvent := None;
     CalendarBody.resources := None |}.

Definition oneWeekExtra : CalendarBody.ExtraData unit unit :=
  {| CalendarBody.firstDay := 1;
     CalendarBody.minDate := 1707955200000;
     CalendarBody.columns := 1;
     CalendarBody.visibleDatesArray := [1707955200000; 1708041600000];
     CalendarBody.renderDraggableEvent := None;
     CalendarBody.resources := None |}.

(** A one-minute event at 10:00, inside the visible hours of
    [sampleBody]. *)
Definition oneMinuteInternal : Types.Internal :=
  {| Types.duration := 1%Q;
     Types.startMinutes := Some 600%Q;
     Types.startUnix := 0;
     Types.total := None;
     Types.index := None;
     Types.columnSpan := None;
     Types.widthPercentage := None;
     Types.xOffsetPercentage := None;
     Types.resourceIndex := None |}.

Definition eventOf (int : Types.Internal) : Types.PackedEvent :=
  {| Types.record := Types.record sampleEvent; Types._internal := int |}.

Definition propsOf (int : Types.Internal) : EventItem.Props unit unit unit :=
  {| EventItem.event := eventOf int;
     EventItem.p_startUnix := 0;
     EventItem.renderEvent := None;
     EventItem.onPressEvent := None;
     EventItem.onLongPressEvent := None;
     EventItem.isDragging := false;
     EventItem.visibleDates := ∅;
     EventItem.totalResources := None |}.

(** The visible hours 09:00 to 17:00. *)
Definition officeBody : EventItem.Body :=
  {| EventItem.start := 540%Q;
     EventItem.end_ := 1020%Q;
     EventItem.rightEdgeSpacing := 1%Q;
     EventItem.overlapEventsSpacing := 1%Q;
     EventItem.columnWidth := 100%Q;
     EventItem.resourcePerPage := 1;
     EventItem.enableResourceScroll := false |}.

(** An event from 08:00 to 09:00: it ends where the visible hours of
    [officeBody] begin. *)
Definition earlyInternal : Types.Internal :=
  {| Types.duration := 60%Q;
     Types.startMinutes := Some 480%Q;
     Types.startUnix := 0;
     Types.total := None;
     Types.index := None;
     Types.columnSpan := None;
     Types.widthPercentage := None;
     Types.xOffsetPercentage := None;
     Types.resourceIndex := None |}.

(** The second of the two overlap columns of [sampleInternal]. *)
Definition secondInternal : Types.Internal :=
  {| Types.duration := 60%Q;
     Types.startMinutes := Some 600%Q;
     Types.startUnix := 0;
     Types.total := Some 2;
     Types.index := Some 1;
     Types.columnSpan := Some 1;
     Types.widthPercentage := None;
     Types.xOffsetPercentage := None;
     Types.resourceIndex := None |}.

(** The start of day [k], counted from 1970-01-01, in UTC. *)
Definition day_ms (k : Z) : Z := k * MILLISECONDS_IN_DAY.



(** An event from 00:04 to 24:00, inside the visible hours of
    [sampleBody]. *)
Definition longInternal : Types.Internal :=
  {| Types.duration := 1436%Q;
     Types.startMinutes := Some 4%Q;
     Types.startUnix := 0;
     Types.total := None;
     Types.index := None;
     Types.columnSpan := None;
     Types.widthPercentage := None;
     Types.xOffsetPercentage := None;
     Types.resourceIndex := None |}.

(** Days 0 and 1 are both shown. *)
Definition bothShown : gmap Z EventItem.VisibleDate :=
  <[day_ms 0 := EventItem.mkVisibleDate 0 (day_ms 0)]>
    (<[day_ms 1 := EventItem.mkVisibleDate 1 (day_ms 1)]> ∅).



(** An event whose start is 47 hours after the start of day 0: the
    distance between two local midnights two calendar days apart when a
    daylight-saving change makes one of the days 23 hours long. *)
Definition fortySevenHoursLater : Types.Internal :=
  {| Types.duration := 60%Q;
     Types.startMinutes := Some 600%Q;
     Types.startUnix := 47 * 3600000;
     Types.total := None;
     Types.index := None;
     Types.columnSpan := None;
     Types.widthPercentage := None;
     Types.xOffsetPercentage := None;
     Types.resourceIndex := None |}.
(** 2024-02-15T12:00Z is a Thursday; its month starts on 2024-02-01. *)
Example luxon_2024_02_15 :
  let dt := fromMillis 0 1707998400000 in
  (toISODate dt, weekday dt, toISODate (startOf_month dt),
   weekday (startOf_month dt))
  = ((2024, 2, 15), 4, (2024, 2, 1), 4).
Proof. vm_compute. reflexivity. Qed.

Example grid_feb_2024 :
  toISODate (MonthView.startOfCalendar env0 ctxMonday 1707998400000) = (2024, 1, 29)
  /\ length (MonthView.monthData env0 ctxMonday 1707998400000 []).1 = 42%nat
  /\ MonthView.weekDays ctxMonday
     = [Some "Mon"; Some "Tue"; Some "Wed"; Some "Thu"; Some "Fri"; Some "Sat"; Some "Sun"]%string.
Proof. vm_compute. auto. Qed.

(** ** Properties of the date model *)

Section LuxonFacts.


Lemma dayNumber_startOf_month dt :
  dayNumber (startOf_month dt) = days_from_civil (year dt) (month dt) 1.
Proof.
  unfold dayNumber, startOf_month; simpl.
  apply Z.div_mul. discriminate.
Qed.

Lemma dayNumber_plus_days dt n :
  dayNumber (plus_days dt n) = dayNumber dt + n.
Proof.
  unfold dayNumber, plus_days; simpl.
  apply Z.div_add. discriminate.
Qed.

Lemma dayNumber_minus_days dt n :
  dayNumber (minus_days dt n) = dayNumber dt - n.
Proof.
  unfold dayNumber, minus_days; simpl.
  replace (wall dt - n * MILLISECONDS_IN_DAY)
    with (wall dt + (- n) * MILLISECONDS_IN_DAY) by lia.
  rewrite Z.div_add by discriminate. lia.
Qed.

(** Going back [(weekday - f + 7) mod 7] days from day [n] reaches a day
    whose weekday is [f], and no day passed on the way has it. *)
Lemma weekday_back_first n f :
  0 <= f <= 7 ->
  ((n - ((n + 3) mod 7 + 1 - f + 7) mod 7 + 3) mod 7 + 1) mod 7 = f mod 7.
Proof. intros Hf. Z.div_mod_to_equations. lia. Qed.

Lemma weekday_back_recent n f k :
  0 <= f <= 7 ->
  0 <= k < ((n + 3) mod 7 + 1 - f + 7) mod 7 ->
  ((n - k + 3) mod 7 + 1) mod 7 <> f mod 7.
Proof. intros Hf Hk. Z.div_mod_to_equations. lia. Qed.

Lemma weekday_range dt : 1 <= weekday dt <= 7.
Proof.
  unfold weekday.
  pose proof (Z.mod_pos_bound (dayNumber dt + 3) 7). lia.
Qed.

(** *** The Gregorian conversions agree on the first day of a month *)

Lemma civil_from_days_era n :
  let z := n + 719468 in
  let era := z / 146097 in
  let '(yoe, m, d) := civil_of_doe (z - era * 146097) in
  civil_from_days n = (if m <=? 2 then yoe + era * 400 + 1 else yoe + era * 400, m, d).
Proof. reflexivity. Qed.

Lemma all_from_spec f n :
  forall k, all_from f n k = true ->
  forall j, k <= j < k + Z.of_nat n -> f j = true.
Proof.
  induction n as [|n IH]; intros k Hall j Hj; [lia|].
  simpl in Hall. apply andb_prop in Hall as [Hk Hrest].
  destruct (decide (j = k)) as [->|Hne]; [exact Hk|].
  apply (IH (k + 1)); [exact Hrest | lia].
Qed.

Lemma month_start_ok_era :
  all_from month_start_ok (Z.to_nat 146097) 0 = true.
Proof. vm_cast_no_check (@eq_refl bool true). Qed.

Lemma month_start_ok_all doe :
  0 <= doe < 146097 -> month_start_ok doe = true.
Proof.
  intros H. apply (all_from_spec _ _ 0 month_start_ok_era).
  rewrite Z2Nat.id by discriminate. exact H.
Qed.

Lemma civil_from_days_split era doe :
  0 <= doe < 146097 ->
  civil_from_days (era * 146097 + doe - 719468)
  = let '(yoe, m, d) := civil_of_doe doe in
    (if m <=? 2 then yoe + era * 400 + 1 else yoe + era * 400, m, d).
Proof.
  intros Hdoe.
  pose proof (civil_from_days_era (era * 146097 + doe - 719468)) as H.
  cbv zeta in H.
  replace (era * 146097 + doe - 719468 + 719468) with (doe + era * 146097) in H by lia.
  rewrite Z.div_add, Z.div_small, Z.add_0_l in H by lia.
  replace (doe + era * 146097 - era * 146097) with doe in H by lia.
  destruct (civil_of_doe doe) as [[yoe m] d].
  exact H.
Qed.

Lemma days_from_civil_split era yoe m :
  0 <= yoe < 400 ->
  days_from_civil (if m <=? 2 then yoe + era * 400 + 1 else yoe + era * 400) m 1
  = era * 146097 + doe_of_month yoe m - 719468.
Proof.
  intros Hyoe. unfold days_from_civil, doe_of_month.
  assert ((if m <=? 2
           then (if m <=? 2 then yoe + era * 400 + 1 else yoe + era * 400) - 1
           else (if m <=? 2 then yoe + era * 400 + 1 else yoe + era * 400))
          = yoe + era * 400) as -> by (destruct (m <=? 2); lia).
  cbv zeta. rewrite Z.div_add, Z.div_small, Z.add_0_l by lia.
  replace (yoe + era * 400 - era * 400) with yoe by lia.
  lia.
Qed.

(** [startOf('month')] is day 1 of the month and year of its argument,
    and lies [day - 1] days before it. *)
Lemma startOf_month_first dt :
  year (startOf_month dt) = year dt
  /\ month (startOf_month dt) = month dt
  /\ day (startOf_month dt) = 1
  /\ dayNumber (startOf_month dt) = dayNumber dt - (day dt - 1)
  /\ 1 <= day dt <= 31 /\ 1 <= month dt <= 12.
Proof.
  unfold year, month, day. rewrite dayNumber_startOf_month.
  unfold year, month.
  set (n := dayNumber dt).
  set (era := (n + 719468) / 146097).
  set (doe := n + 719468 - era * 146097).
  assert (0 <= doe < 146097) as Hdoe.
  { subst doe era. pose proof (Z.mod_pos_bound (n + 719468) 146097).
    rewrite Z.mod_eq in H by lia. lia. }
  assert (n = era * 146097 + doe - 719468) as Hn by (subst doe; lia).
  pose proof (month_start_ok_all doe Hdoe) as Hok.
  pose proof (civil_from_days_split era doe Hdoe) as Hciv.
  rewrite <- Hn in Hciv. unfold month_start_ok in Hok.
  destruct (civil_of_doe doe) as [[yoe m] d].
  destruct (civil_of_doe (doe_of_month yoe m)) as [[yoe1 m1] d1] eqn:E1.
  repeat (apply andb_prop in Hok as [Hok ?]).
  rewrite Hciv. cbn [fst snd].
  assert (0 <= yoe < 400) as Hyoe by lia.
  rewrite (days_from_civil_split era yoe m Hyoe).
  assert (0 <= doe_of_month yoe m < 146097) as Hdoe1 by lia.
  rewrite (civil_from_days_split era _ Hdoe1), E1. cbn [fst snd].
  assert (yoe1 = yoe) as -> by lia.
  assert (m1 = m) as -> by lia.
  repeat split; lia.
Qed.

End LuxonFacts.

(** ** The month grid *)

Section MonthGrid.

Import Types MonthView.

Variable env : DateEnv.
Variable ctx : Context.

(** The loop appends, in order, the cell of each index it visits. *)
Lemma monthLoop_cells cur soc evs n :
  forall i days log,
  (monthLoop env ctx cur soc evs n i days log).1
  = days ++ map (fun k : nat => (dayCell env ctx cur soc evs (i + Z.of_nat k)).1)
              (seq 0 n).
Proof.
  induction n as [|n IH]; intros i days log.
  - simpl. now rewrite app_nil_r.
  - cbn [monthLoop].
    destruct (dayCell env ctx cur soc evs i) as [cell w] eqn:Ecell.
    rewrite IH, <- app_assoc. f_equal.
    cbn [seq map app]. rewrite Z.add_0_r, Ecell. cbn [fst]. f_equal.
    rewrite <- seq_shift, map_map.
    apply map_ext. intros k. do 2 f_equal. lia.
Qed.

(** The console receives the warnings of each cell, in the same order. *)
Lemma monthLoop_console cur soc evs n :
  forall i days log,
  (monthLoop env ctx cur soc evs n i days log).2
  = log ++ concat (map (fun k : nat => (dayCell env ctx cur soc evs (i + Z.of_nat k)).2)
                       (seq 0 n)).
Proof.
  induction n as [|n IH]; intros i days log.
  - simpl. now rewrite app_nil_r.
  - cbn [monthLoop].
    destruct (dayCell env ctx cur soc evs i) as [cell w] eqn:Ecell.
    rewrite IH, <- app_assoc. f_equal.
    cbn [seq map concat]. rewrite Z.add_0_r, Ecell. cbn [snd]. f_equal.
    rewrite <- seq_shift, map_map. f_equal.
    apply map_ext. intros k. do 2 f_equal. lia.
Qed.

Lemma monthData_cells unix evs :
  (monthData env ctx unix evs).1
  = map (fun k : nat =>
           (dayCell env ctx (parseUnix env unix) (startOfCalendar env ctx unix)
                    evs (Z.of_nat k)).1)
        (seq 0 42).
Proof. unfold monthData. now rewrite monthLoop_cells. Qed.

Lemma monthData_console unix evs :
  (monthData env ctx unix evs).2
  = concat (map (fun k : nat =>
                   (dayCell env ctx (parseUnix env unix) (startOfCalendar env ctx unix)
                            evs (Z.of_nat k)).2)
                (seq 0 42)).
Proof. unfold monthData. now rewrite monthLoop_console. Qed.

Lemma monthData_lookup unix evs (i : nat) :
  (i < 42)%nat ->
  (monthData env ctx unix evs).1 !! i
  = Some (dayCell env ctx (parseUnix env unix) (startOfCalendar env ctx unix)
                  evs (Z.of_nat i)).1.
Proof.
  intros Hi. rewrite monthData_cells, list_lookup_fmap.
  rewrite lookup_seq_lt by exact Hi. reflexivity.
Qed.

Lemma dayCell_fields cur soc evs i :
  let cell := (dayCell env ctx cur soc evs i).1 in
  date cell = plus_days soc i
  /\ dateUnix cell = toMillis (plus_days soc i)
  /\ isCurrentMonth cell = bool_decide (month (plus_days soc i) = month cur)
  /\ isToday cell = bool_decide (toMillis (plus_days soc i) = currentDateUnix ctx)
  /\ events cell = (dayEvents env ctx (plus_days soc i) evs).1.
Proof.
  unfold dayCell.
  destruct (dayEvents env ctx (plus_days soc i) evs) as [evs' w].
  cbn. auto.
Qed.

(** *** Events of a day *)

(** Only events that the filter callback keeps reach a cell. *)
Lemma dayEvents_kept dayDate evs event :
  event ∈ (dayEvents env ctx dayDate evs).1 ->
  (keepEvent env ctx dayDate event).1 = true.
Proof.
  induction evs as [|e rest IH]; cbn [dayEvents].
  - intros H. cbn in H. now apply elem_of_nil in H.
  - destruct (keepEvent env ctx dayDate e) as [keep w] eqn:Ekeep.
    destruct (dayEvents env ctx dayDate rest) as [kept ws].
    cbn [fst] in *. destruct keep.
    + intros [->|Hin]%elem_of_cons; [now rewrite Ekeep | auto].
    + auto.
Qed.

(** Every warning of the filter callback on a listed event is logged. *)
Lemma dayEvents_warned dayDate evs event w :
  event ∈ evs ->
  w ∈ (keepEvent env ctx dayDate event).2 ->
  w ∈ (dayEvents env ctx dayDate evs).2.
Proof.
  induction evs as [|e rest IH]; cbn [dayEvents].
  - intros H. now apply elem_of_nil in H.
  - destruct (keepEvent env ctx dayDate e) as [keep w'] eqn:Ekeep.
    destruct (dayEvents env ctx dayDate rest) as [kept ws].
    cbn [snd] in *.
    intros [->|Hin]%elem_of_cons Hw; apply elem_of_app.
    + left. now rewrite Ekeep in Hw.
    + right. auto.
Qed.

Lemma dayEvents_nil dayDate : dayEvents env ctx dayDate [] = ([], []).
Proof. reflexivity. Qed.

(** An event whose start makes [parseDateTime] throw is dropped by the
    filter callback, which logs the warning. *)
Lemma keepEvent_throws dayDate event error :
  parseDateTime env (start event) (Some (timezone ctx)) = Throws error ->
  keepEvent env ctx dayDate event
  = (false, [mkWarning "Error parsing event date:" (start event) error]).
Proof. intros H. unfold keepEvent. now rewrite H. Qed.

(** *** Rows of the grid *)

Lemma slice_map {A B : Type} (f : A -> B) (l : list A) (a b : nat) :
  slice (map f l) a b = map f (slice l a b).
Proof. unfold slice. now rewrite skipn_map, firstn_map. Qed.

Lemma weeks_map {B : Type} (f : B -> DayCell) (l : list B) :
  weeks (map f l) = map (map f) (map (fun i => slice l (i * 7) ((i + 1) * 7)) (seq 0 6)).
Proof.
  unfold weeks. rewrite map_map. apply map_ext. intros i. apply slice_map.
Qed.

(** The six rows, put end to end, are the 42 cells. *)
Lemma weeks_concat unix evs :
  concat (weeks (monthData env ctx unix evs).1) = (monthData env ctx unix evs).1.
Proof.
  rewrite monthData_cells, weeks_map, <- concat_map. reflexivity.
Qed.

Lemma weeks_length unix evs :
  length (weeks (monthData env ctx unix evs).1) = 6%nat
  /\ Forall (fun row => length row = 7%nat) (weeks (monthData env ctx unix evs).1).
Proof.
  rewrite monthData_cells, weeks_map.
  split; [reflexivity|].
  apply List.Forall_forall. intros row Hrow.
  apply in_map_iff in Hrow as (r & <- & Hr).
  rewrite length_map.
  revert r Hr. apply List.Forall_forall. vm_compute. repeat constructor.
Qed.

(** With a first day in range, the JS remainder of [monthData] is the
    mathematical one. *)
Lemma diffToFirstDay_mod dt :
  0 <= firstDay ctx <= 7 ->
  js_rem (weekday dt - firstDay ctx + 7) 7 = (weekday dt - firstDay ctx + 7) mod 7.
Proof.
  intros Hf. pose proof (weekday_range dt).
  unfold js_rem. apply Z.rem_mod_nonneg; lia.
Qed.

(** C2. For every anchor instant and configured first day of the week
    (0..7, Sunday being 0 or 7), [monthData] produces exactly 42 cells;
    cell [i] is the origin plus [i] days, where the origin is the start
    of the anchor month minus
    [(weekday(startOfMonth) - firstDay + 7) mod 7] days; the flag
    [isCurrentMonth] of a cell is [cell month = anchor month].  The start
    of the month is day 1 of the anchor's month and year, and the origin
    is the most recent date on or before it whose weekday is the
    configured first day: it has that weekday and none of the dates after
    it up to the first of the month has. *)
Theorem monthData_grid unix evs :
  0 <= firstDay ctx <= 7 ->
  let currentDate := parseUnix env unix in
  let startOfMonth := startOf_month currentDate in
  let diffToFirstDay := (weekday startOfMonth - firstDay ctx + 7) mod 7 in
  let origin := minus_days startOfMonth diffToFirstDay in
  let cells := (monthData env ctx unix evs).1 in
  length cells = 42%nat
  /\ (forall i : nat, (i < 42)%nat ->
        exists cell, cells !! i = Some cell
          /\ date cell = plus_days origin (Z.of_nat i)
          /\ dateUnix cell = toMillis (plus_days origin (Z.of_nat i))
          /\ dayNumber (date cell) = dayNumber origin + Z.of_nat i
          /\ isCurrentMonth cell
             = bool_decide (month (date cell) = month currentDate))
  /\ (year startOfMonth = year currentDate
      /\ month startOfMonth = month currentDate
      /\ day startOfMonth = 1)
  /\ 0 <= diffToFirstDay <= 6
  /\ weekday origin mod 7 = firstDay ctx mod 7
  /\ (forall k, 0 <= k < diffToFirstDay ->
        weekday (minus_days startOfMonth k) mod 7 <> firstDay ctx mod 7).
Proof.
  intros Hf currentDate startOfMonth diffToFirstDay origin cells.
  assert (startOfCalendar env ctx unix = origin) as Hsoc.
  { unfold startOfCalendar. rewrite diffToFirstDay_mod by exact Hf. reflexivity. }
  split; [|split; [|split; [|split; [|split]]]].
  - subst cells. now rewrite monthData_cells, length_map, length_seq.
  - intros i Hi. subst cells.
    rewrite (monthData_lookup unix evs i Hi), Hsoc.
    eexists; split; [reflexivity|].
    pose proof (dayCell_fields (parseUnix env unix) origin evs (Z.of_nat i)) as H.
    cbv zeta in H. destruct H as (Hd & Hu & Hm & _ & _).
    rewrite Hd, Hu, Hm. repeat split.
    apply dayNumber_plus_days.
  - pose proof (startOf_month_first currentDate) as H. tauto.
  - subst diffToFirstDay. pose proof (Z.mod_pos_bound (weekday startOfMonth - firstDay ctx + 7) 7).
    lia.
  - subst origin. unfold weekday at 1. rewrite dayNumber_minus_days.
    subst diffToFirstDay. unfold weekday.
    apply weekday_back_first. exact Hf.
  - intros k Hk. unfold weekday at 1. rewrite dayNumber_minus_days.
    subst diffToFirstDay. unfold weekday in Hk.
    apply weekday_back_recent; assumption.
Qed.

Lemma dayCell_warnings cur soc evs i :
  (dayCell env ctx cur soc evs i).2 = (dayEvents env ctx (plus_days soc i) evs).2.
Proof.
  unfold dayCell.
  now destruct (dayEvents env ctx (plus_days soc i) evs) as [evs' w].
Qed.

(** The cells MonthView hands to its MonthDay children are the 42 cells
    of [monthData]. *)
Lemma render_cells {R Node : Type} (props : Props R Node) :
  concat (grid (render env ctx props))
  = map (monthDay props) (monthData env ctx (p_dateUnix props) (p_events props)).1
  /\ console (render env ctx props)
     = (monthData env ctx (p_dateUnix props) (p_events props)).2.
Proof.
  unfold render.
  pose proof (weeks_concat (p_dateUnix props) (p_events props)) as Hw.
  destruct (monthData env ctx (p_dateUnix props) (p_events props)) as [cells log].
  cbn [grid console fst snd] in *.
  now rewrite <- concat_map, Hw.
Qed.

(** When [parseDateTime] does throw on the start of an event of the
    list, the event is in the events of none of the 42 day cells, the
    render returns its 42 cells all the same, and the console holds the
    warning with the offending start and the error caught. *)
Theorem unparsable_start_excluded {R Node : Type} (props : Props R Node)
    (event : EventItem) (error : string) :
  event ∈ p_events props ->
  parseDateTime env (start event) (Some (timezone ctx)) = Throws error ->
  let r := render env ctx props in
  length (concat (grid r)) = 42%nat
  /\ (forall cell, cell ∈ concat (grid r) -> event ∉ d_events cell)
  /\ mkWarning "Error parsing event date:" (start event) error ∈ console r.
Proof.
  intros Hin Hthrow r. subst r.
  destruct (render_cells props) as [-> ->].
  split; [|split].
  - now rewrite length_map, monthData_cells, length_map, length_seq.
  - intros cell Hcell Hev.
    apply list_elem_of_In, in_map_iff in Hcell as (c & <- & Hc).
    rewrite monthData_cells in Hc.
    apply in_map_iff in Hc as (k & <- & _).
    cbn [monthDay d_events] in Hev.
    pose proof (dayCell_fields (parseUnix env (p_dateUnix props))
                  (startOfCalendar env ctx (p_dateUnix props))
                  (p_events props) (Z.of_nat k)) as H.
    cbv zeta in H. destruct H as (_ & _ & _ & _ & He).
    rewrite He in Hev. apply dayEvents_kept in Hev.
    rewrite (keepEvent_throws _ _ _ Hthrow) in Hev. discriminate.
  - rewrite monthData_console.
    apply list_elem_of_In, in_concat.
    eexists. split.
    + apply in_map_iff. exists 0%nat. split; [reflexivity|].
      apply in_seq. lia.
    + apply list_elem_of_In. rewrite dayCell_warnings.
      apply dayEvents_warned with (event := event); [exact Hin|].
      rewrite (keepEvent_throws _ _ _ Hthrow). apply list_elem_of_here.
Qed.

(** An event whose start parses to the invalid value is dropped by the
    filter callback without a warning: [null === "YYYY-MM-DD"] is false
    and nothing is thrown. *)
Lemma keepEvent_invalid dayDate event reason :
  parseDateTime env (start event) (Some (timezone ctx)) = Returns (Invalid reason) ->
  keepEvent env ctx dayDate event = (false, []).
Proof.
  intros H. unfold keepEvent. rewrite H. cbn [isoDate].
  now rewrite bool_decide_eq_false_2 by discriminate.
Qed.

(** Every warning of a day comes from the [catch] block: from an event
    of the list on whose start [parseDateTime] throws. *)
Lemma dayEvents_warning_origin dayDate evs w :
  w ∈ (dayEvents env ctx dayDate evs).2 ->
  exists e error,
    e ∈ evs
    /\ parseDateTime env (start e) (Some (timezone ctx)) = Throws error
    /\ w = mkWarning "Error parsing event date:" (start e) error.
Proof.
  induction evs as [|e rest IH]; cbn [dayEvents].
  - intros H. now apply elem_of_nil in H.
  - unfold keepEvent at 1.
    destruct (parseDateTime env (start e) (Some (timezone ctx))) as [p|error] eqn:Ep;
      destruct (dayEvents env ctx dayDate rest) as [kept ws]; cbn [snd] in *.
    + intros Hw. cbn [app] in Hw.
      destruct (IH Hw) as (e' & error & He' & Hp & ->).
      exists e', error. split; [now apply list_elem_of_further | now split].
    + intros [->%list_elem_of_singleton | Hw]%elem_of_app.
      * exists e, error. split; [apply list_elem_of_here | now split].
      * destruct (IH Hw) as (e' & error' & He' & Hp & ->).
        exists e', error'. split; [now apply list_elem_of_further | now split].
Qed.

Lemma console_warning_origin {R Node : Type} (props : Props R Node) w :
  w ∈ console (render env ctx props) ->
  exists e error,
    e ∈ p_events props
    /\ parseDateTime env (start e) (Some (timezone ctx)) = Throws error
    /\ w = mkWarning "Error parsing event date:" (start e) error.
Proof.
  destruct (render_cells props) as [_ ->]. rewrite monthData_console.
  intros Hw. apply list_elem_of_In, in_concat in Hw as (ws & Hws & Hin).
  apply in_map_iff in Hws as (k & <- & _).
  rewrite dayCell_warnings in Hin.
  apply list_elem_of_In in Hin. now apply dayEvents_warning_origin in Hin.
Qed.

(** C6, on the code: an event of the list given to MonthView whose start
    is a text that is not a date, for which [parseDateTime] returns the
    invalid value as Luxon's parsers do, is in the events of none of the
    42 day cells and the render returns its 42 cells, but no warning is
    recorded for it: the [catch] block that logs is entered only when
    [parseDateTime] throws, so no warning of the console is about that
    start, and when no start of the list makes [parseDateTime] throw the
    console stays empty. *)
Theorem invalid_start_logs_no_warning {R Node : Type} (props : Props R Node)
    (event : EventItem) (reason : string) :
  event ∈ p_events props ->
  parseDateTime env (start event) (Some (timezone ctx)) = Returns (Invalid reason) ->
  let r := render env ctx props in
  length (concat (grid r)) = 42%nat
  /\ (forall cell, cell ∈ concat (grid r) -> event ∉ d_events cell)
  /\ (forall w, w ∈ console r -> subject w <> start event)
  /\ ((forall e error, e ∈ p_events props ->
         parseDateTime env (start e) (Some (timezone ctx)) <> Throws error) ->
      console r = []).
Proof.
  intros Hin Hinvalid r. subst r.
  split; [|split; [|split]].
  - destruct (render_cells props) as [-> _].
    now rewrite length_map, monthData_cells, length_map, length_seq.
  - destruct (render_cells props) as [-> _].
    intros cell Hcell Hev.
    apply list_elem_of_In, in_map_iff in Hcell as (c & <- & Hc).
    rewrite monthData_cells in Hc.
    apply in_map_iff in Hc as (k & <- & _).
    cbn [monthDay d_events] in Hev.
    pose proof (dayCell_fields (parseUnix env (p_dateUnix props))
                  (startOfCalendar env ctx (p_dateUnix props))
                  (p_events props) (Z.of_nat k)) as H.
    cbv zeta in H. destruct H as (_ & _ & _ & _ & He).
    rewrite He in Hev. apply dayEvents_kept in Hev.
    rewrite (keepEvent_invalid _ _ _ Hinvalid) in Hev. discriminate.
  - intros w Hw Hsubject.
    apply console_warning_origin in Hw as (e & error & _ & Hthrows & ->).
    cbn [subject] in Hsubject. rewrite Hsubject, Hinvalid in Hthrows.
    discriminate.
  - intros Hnone.
    destruct (console (render env ctx props)) as [|w ws] eqn:Econsole;
      [reflexivity|].
    assert (w ∈ console (render env ctx props)) as Hw
      by (rewrite Econsole; apply list_elem_of_here).
    apply console_warning_origin in Hw as (e & error & He & Hthrows & _).
    now apply Hnone in Hthrows.
Qed.

End MonthGrid.

Lemma monthData_grid_witness :
  0 <= MonthView.firstDay ctxMonday <= 7
  /\ length (MonthView.monthData env0 ctxMonday 1707998400000 []).1 = 42%nat.
Proof.
  assert (0 <= MonthView.firstDay ctxMonday <= 7) as H by (simpl; lia).
  split; [exact H|].
  exact (proj1 (monthData_grid env0 ctxMonday 1707998400000 [] H)).
Defined.

Lemma unparsable_start_excluded_witness :
  badEvent ∈ MonthView.p_events monthProps
  /\ MonthView.mkWarning "Error parsing event date:" (ISO "not a date") "unparsable"
     ∈ MonthView.console (MonthView.render env0 ctxMonday monthProps).
Proof.
  assert (badEvent ∈ MonthView.p_events monthProps) as H by apply list_elem_of_here.
  split; [exact H|].
  exact (proj2 (proj2 (unparsable_start_excluded env0 ctxMonday monthProps
                         badEvent "unparsable" H eq_refl))).
Defined.

Lemma invalid_start_logs_no_warning_witness :
  (badEvent ∈ MonthView.p_events monthProps
   /\ parseDateTime envLuxon (Types.start badEvent)
        (Some (MonthView.timezone ctxMonday))
      = Returns (Invalid "unparsable"))
  /\ length (concat (MonthView.grid (MonthView.render envLuxon ctxMonday monthProps)))
     = 42%nat
  /\ MonthView.console (MonthView.render envLuxon ctxMonday monthProps) = [].
Proof.
  assert (badEvent ∈ MonthView.p_events monthProps) as H by apply list_elem_of_here.
  split; [split; [exact H | reflexivity]|].
  pose proof (invalid_start_logs_no_warning envLuxon ctxMonday monthProps
                badEvent "unparsable" H eq_refl) as W.
  cbv zeta in W. destruct W as (W42 & _ & _ & Wconsole).
  split; [exact W42|]. apply Wconsole.
  intros e error _ Hthrows.
  destruct (Types.start e); discriminate Hthrows.
Defined.

(** ** The weekday header *)

Section WeekDays.

Import MonthView.

Variable ctx : Context.

Lemma weekDaysLoop_labels n :
  forall i days,
  weekDaysLoop ctx n i days
  = days ++ map (fun k : nat =>
                   js_index (weekDayShort ctx)
                     (js_rem (firstDay ctx + (i + Z.of_nat k) - 1) 7))
                (seq 0 n).
Proof.
  induction n as [|n IH]; intros i days.
  - simpl. now rewrite app_nil_r.
  - cbn [weekDaysLoop]. rewrite IH, <- app_assoc. f_equal.
    cbn [seq map app]. rewrite Z.add_0_r. f_equal.
    rewrite <- seq_shift, map_map.
    apply map_ext. intros k. do 3 f_equal. lia.
Qed.

(** The label at position [i] is the table entry at the JS remainder
    [(firstDay + i - 1) % 7]. *)
Lemma weekDays_labels :
  weekDays ctx
  = map (fun k : nat =>
           js_index (weekDayShort ctx) (js_rem (firstDay ctx + Z.of_nat k - 1) 7))
        (seq 0 7).
Proof. unfold weekDays. now rewrite weekDaysLoop_labels. Qed.

(** From a first day of 1 on, the remainder is the mathematical
    [(firstDay + i - 1) mod 7], and the label is the entry at that index. *)
Lemma weekDays_lookup (i : nat) :
  1 <= firstDay ctx ->
  (i < 7)%nat ->
  weekDays ctx !! i
  = Some (weekDayShort ctx !! Z.to_nat ((firstDay ctx + Z.of_nat i - 1) mod 7)).
Proof.
  intros Hf Hi. rewrite weekDays_labels, list_lookup_fmap.
  rewrite lookup_seq_lt by exact Hi. cbn [fmap option_fmap option_map Nat.add].
  f_equal. unfold js_index, js_rem.
  rewrite Z.rem_mod_nonneg by lia.
  pose proof (Z.mod_pos_bound (firstDay ctx + Z.of_nat i - 1) 7) as Hm.
  destruct (Z.ltb_spec ((firstDay ctx + Z.of_nat i - 1) mod 7) 0);
    [lia | reflexivity].
Qed.

(** With the first day 0 the index of the first label is
    [(0 + 0 - 1) % 7 = -1]: the first label is [undefined], and the six
    labels after it are the entries 0 to 5 of the table. *)
Lemma weekDays_first_day_zero :
  firstDay ctx = 0 ->
  weekDays ctx
  = None :: map (fun k : nat => weekDayShort ctx !! k) [0; 1; 2; 3; 4; 5]%nat.
Proof.
  intros Hf. rewrite weekDays_labels, Hf. reflexivity.
Qed.

(** C7, as the code has it: for every configured first day of the week
    from 1 (Monday) to 7 (Sunday), the header label at position [i] is
    the short weekday name at index [(firstDay + i - 1) mod 7] of the
    locale's table, a table of seven names that has the name of day [d]
    at index [d - 1]; so the header begins with the name of the
    configured first day and is the table rotated to begin there; for
    the first day Monday (1) the first label is the Monday entry (index
    0) and the seven labels are the week in the table's order. *)
Theorem weekDays_rotation :
  1 <= firstDay ctx <= 7 ->
  length (weekDayShort ctx) = 7%nat ->
  (forall i : nat, (i < 7)%nat ->
     weekDays ctx !! i
     = Some (weekDayShort ctx !! Z.to_nat ((firstDay ctx + Z.of_nat i - 1) mod 7)))
  /\ weekDays ctx !! 0%nat
     = Some (weekDayShort ctx !! Z.to_nat (firstDay ctx - 1))
  /\ weekDays ctx
     = map Some (rotate (Z.to_nat (firstDay ctx - 1)) (weekDayShort ctx))
  /\ (firstDay ctx = 1 ->
      weekDays ctx !! 0%nat = Some (weekDayShort ctx !! 0%nat)
      /\ weekDays ctx = map Some (weekDayShort ctx)).
Proof.
  intros Hf Hlen. split; [|split; [|split]].
  - intros i Hi. apply weekDays_lookup; [lia | exact Hi].
  - rewrite weekDays_lookup by lia.
    replace (firstDay ctx + Z.of_nat 0 - 1) with (firstDay ctx - 1) by lia.
    now rewrite Z.mod_small by lia.
  - rewrite weekDays_labels.
    destruct (weekDayShort ctx) as [|a [|b [|c [|d [|e [|f [|g [|h l]]]]]]]];
      try discriminate Hlen.
    assert (firstDay ctx = 1 \/ firstDay ctx = 2 \/ firstDay ctx = 3
            \/ firstDay ctx = 4 \/ firstDay ctx = 5 \/ firstDay ctx = 6
            \/ firstDay ctx = 7) as Hcases by lia.
    destruct Hcases as [-> | [-> | [-> | [-> | [-> | [-> | ->]]]]]]; reflexivity.
  - intros H1. rewrite weekDays_labels, H1.
    destruct (weekDayShort ctx) as [|a [|b [|c [|d [|e [|f [|g [|h l]]]]]]]];
      try discriminate Hlen.
    split; reflexivity.
Qed.

End WeekDays.

Lemma weekDays_rotation_witness :
  (1 <= MonthView.firstDay ctxMonday <= 7
   /\ length (MonthView.weekDayShort ctxMonday) = 7%nat)
  /\ MonthView.weekDays ctxMonday
     = map Some (MonthView.weekDayShort ctxMonday).
Proof.
  assert (1 <= MonthView.firstDay ctxMonday <= 7
          /\ length (MonthView.weekDayShort ctxMonday) = 7%nat) as H
    by (split; [simpl; lia | reflexivity]).
  split; [exact H|].
  destruct H as (H1 & H2).
  exact (proj2 (proj2 (proj2 (proj2 (weekDays_rotation ctxMonday H1 H2))) eq_refl)).
Defined.

(** C7 as stated fails: with the first day 0 (Sunday) and a table from
    Monday to Sunday, the first header label is [undefined], not the
    entry at index [(0 + 0 - 1) mod 7 = 6], and the header does not begin
    with the configured first day. *)
Lemma weekDays_sunday_first_undefined :
  MonthView.weekDays ctxSunday !! 0%nat = Some None
  /\ MonthView.weekDayShort ctxSunday
       !! Z.to_nat ((MonthView.firstDay ctxSunday + 0 - 1) mod 7)
     = Some "Sun"%string
  /\ MonthView.weekDays ctxSunday
     = [None; Some "Mon"; Some "Tue"; Some "Wed"; Some "Thu"; Some "Fri";
        Some "Sat"]%string.
Proof. repeat split. Qed.

(** ** The month-page adapter *)

Section MonthPage.

Import Types.

Context {R Node : Type}.

(** C9. For every page index and anchor instant, MonthViewBody renders
    one MonthView for the anchor instant with an empty event list and
    with the day-press, event-press, event-render and day-item-render
    callbacks it was given; every day cell of that MonthView therefore
    has no events, and nothing is logged. *)
Theorem MonthViewBody_forwards (env : DateEnv) (ctx : MonthView.Context)
    (props : MonthViewBody.Props R Node) :
  let mv := MonthViewBody.child (MonthViewBody.render props) in
  MonthView.p_dateUnix mv = MonthViewBody.dateUnix props
  /\ MonthView.p_events mv = []
  /\ MonthView.onPressDay mv = MonthViewBody.onPressDay props
  /\ MonthView.onPressEvent mv = MonthViewBody.onPressEvent props
  /\ MonthView.renderEvent mv = MonthViewBody.renderEvent props
  /\ MonthView.renderDayItem mv = MonthViewBody.renderDayItem props
  /\ length (concat (MonthView.grid (MonthView.render env ctx mv))) = 42%nat
  /\ (forall cell, cell ∈ concat (MonthView.grid (MonthView.render env ctx mv)) ->
        MonthView.d_events cell = []
        /\ MonthView.d_onPressDay cell = MonthViewBody.onPressDay props
        /\ MonthView.d_onPressEvent cell = MonthViewBody.onPressEvent props
        /\ MonthView.d_renderEvent cell = MonthViewBody.renderEvent props
        /\ MonthView.d_renderDayItem cell = MonthViewBody.renderDayItem props)
  /\ MonthView.console (MonthView.render env ctx mv) = [].
Proof.
  intros mv. subst mv. cbn [MonthViewBody.render MonthViewBody.child
    MonthView.p_dateUnix MonthView.p_events MonthView.onPressDay
    MonthView.onPressEvent MonthView.renderEvent MonthView.renderDayItem].
  do 6 (split; [reflexivity|]).
  set (mv := MonthView.mkProps _ _ _ _ _ _).
  destruct (render_cells env ctx mv) as [-> ->].
  split; [|split].
  - now rewrite length_map, monthData_cells, length_map, length_seq.
  - intros cell Hcell.
    apply list_elem_of_In, in_map_iff in Hcell as (c & <- & Hc).
    rewrite monthData_cells in Hc.
    apply in_map_iff in Hc as (k & <- & _).
    cbn [MonthView.monthDay MonthView.d_events MonthView.d_onPressDay
         MonthView.d_onPressEvent MonthView.d_renderEvent MonthView.d_renderDayItem].
    split; [|repeat split].
    pose proof (dayCell_fields env ctx (parseUnix env (MonthView.p_dateUnix mv))
                  (MonthView.startOfCalendar env ctx (MonthView.p_dateUnix mv))
                  (MonthView.p_events mv) (Z.of_nat k)) as H.
    cbv zeta in H. destruct H as (_ & _ & _ & _ & He).
    rewrite He. reflexivity.
  - rewrite monthData_console.
    apply concat_nil_Forall, List.Forall_forall.
    intros w Hw. apply in_map_iff in Hw as (k & <- & _).
    now rewrite dayCell_warnings.
Qed.

End MonthPage.

(** ** Callbacks of the event block *)

Section EventCallbacks.

Import Types EventItem.

Context {R Node Gesture : Type}.

(** C1, as the code has it: the long-press callback given to EventItem
    receives the packed event that EventItem was given, with its
    [_internal] block; the copy without [_internal] is what the default
    block reads its colour, title colour and title from. *)
Theorem longPress_receives_packed_event (env : DateEnv) (body : Body)
    (props : Props R Node Gesture) (f : EventObject -> Gesture -> R) :
  onLongPressEvent props = Some f ->
  let r := render env body props in
  let rest := (destructure (event props)).2 in
  (exists h, onLongPress r = Some h
     /\ forall resEvent, h resEvent = f (WithInternal (event props)) resEvent)
  /\ has_internal (WithInternal (event props)) = true
  /\ has_internal rest = false
  /\ content r = {| backgroundColor := color (fields rest);
                    titleColor_ := titleColor (fields rest);
                    title_ := title (fields rest) |}.
Proof.
  intros Hf r rest. subst r rest. unfold render.
  cbn [destructure fst snd onLongPress content has_internal].
  rewrite Hf. split; [|auto].
  eexists. split; [reflexivity|]. intros resEvent. reflexivity.
Qed.

End EventCallbacks.

Lemma longPress_receives_packed_event_witness :
  EventItem.onLongPressEvent recordingProps = Some (fun e _ => e)
  /\ exists h, EventItem.onLongPress (EventItem.render env0 sampleBody recordingProps) = Some h
       /\ forall resEvent, h resEvent = Types.WithInternal sampleEvent.
Proof.
  split; [reflexivity|].
  exact (proj1 (longPress_receives_packed_event env0 sampleBody recordingProps
                  (fun e _ => e) eq_refl)).
Defined.

(** C1 as stated fails: the object the long-press callback receives, and
    the one the press callback receives, is the packed event with its
    [_internal] block, not the record stripped of it. *)
Lemma callbacks_receive_internal :
  let r := EventItem.render env0 sampleBody recordingProps in
  (exists h, EventItem.onLongPress r = Some h
     /\ h tt = Types.WithInternal sampleEvent
     /\ h tt <> Types.Stripped (Types.record sampleEvent)
     /\ Types.has_internal (h tt) = true)
  /\ (exists h, EventItem.onPress r = Some h
     /\ h tt = Some (Types.WithInternal sampleEvent)
     /\ h tt <> Some (Types.Stripped (Types.record sampleEvent))).
Proof.
  split; eexists; (split; [reflexivity|]); repeat split; discriminate.
Qed.

(** ** Pages of the date-paged list *)

Section Pages.

Import CalendarBody.

Context {R Node Draggable Resource : Type}.

(** C8, as the code has it: for a page whose start instant is found in
    the array of visible dates (at [index * columns], and not 0),
    [_renderTimeSlots] renders MonthViewBody when the number of days is
    30, with the page index, the start instant, the day-number press
    action, the event press action and the event renderer; for any other
    number of days it renders BodyItem with the page index, the start
    instant, the draggable-event renderer and the resources.  A page whose
    start instant is missing from the array, or 0, renders nothing. *)
Theorem renderTimeSlots_page (c : Closure R Node) (index : Z)
    (extra : ExtraData Draggable Resource) :
  let pageIndex := index * columns extra in
  let found := js_index (visibleDatesArray extra) pageIndex in
  (forall dateUnixByIndex,
     found = Some dateUnixByIndex -> dateUnixByIndex <> 0 ->
     (numberOfDays c = 30 ->
      _renderTimeSlots c index extra
      = Some (MonthViewBodyElement
                {| MonthViewBody.pageIndex := pageIndex;
                   MonthViewBody.dateUnix := dateUnixByIndex;
                   MonthViewBody.onPressDay := onPressDayNumber c;
                   MonthViewBody.onPressEvent := onPressEvent c;
                   MonthViewBody.renderEvent := renderEvent c;
                   MonthViewBody.renderDayItem := None |}))
     /\ (numberOfDays c <> 30 ->
         _renderTimeSlots c index extra
         = Some (BodyItemElement
                   {| b_pageIndex := pageIndex;
                      b_startUnix := dateUnixByIndex;
                      b_renderDraggableEvent := renderDraggableEvent extra;
                      b_resources := resources extra |})))
  /\ (found = None \/ found = Some 0 -> _renderTimeSlots c index extra = None).
Proof.
  intros pageIndex found. subst pageIndex found. unfold _renderTimeSlots.
  split.
  - intros d -> Hd. cbn [truthyZ numZ default].
    destruct (Z.eqb_spec d 0) as [|_]; [contradiction|]. cbn [negb].
    split; intros Hn.
    + now rewrite Hn.
    + destruct (Z.eqb_spec (numberOfDays c) 30); [contradiction|reflexivity].
  - now intros [-> | ->].
Qed.

End Pages.

(** C8 as stated fails: in month mode (30 days) the page at index 0 of
    an empty array of visible dates is not rendered by MonthViewBody; it
    renders nothing. *)
Lemma renderTimeSlots_null_page :
  CalendarBody.numberOfDays monthClosure = 30
  /\ CalendarBody._renderTimeSlots monthClosure 0 emptyExtra = None
  /\ ~ (exists props,
          CalendarBody._renderTimeSlots monthClosure 0 emptyExtra
          = Some (CalendarBody.MonthViewBodyElement props)).
Proof.
  split; [reflexivity|]. split; [reflexivity|].
  intros [props H]. discriminate H.
Qed.

(** ** Vertical geometry of the event block *)

Lemma Qltb_true (a b : Q) : Qltb a b = true <-> (a < b)%Q.
Proof.
  unfold Qltb. rewrite negb_true_iff. split.
  - intros H. apply Qnot_le_lt. intros Hle.
    apply Qle_bool_iff in Hle. congruence.
  - intros H. destruct (Qle_bool b a) eqn:E; [|reflexivity].
    apply Qle_bool_iff in E. lra.
Qed.

Lemma Qltb_false (a b : Q) : Qltb a b = false <-> (b <= a)%Q.
Proof.
  unfold Qltb. rewrite negb_false_iff. apply Qle_bool_iff.
Qed.

Section Percent.

Local Open Scope Q_scope.

Lemma pct_lt (a R : Q) : 0 < R -> a < R -> a / R * 100 < 100.
Proof.
  intros HR Ha.
  assert (a / R < 1) by (apply Qlt_shift_div_r; lra).
  lra.
Qed.

Lemma pct_pos (a R : Q) : 0 < R -> 0 < a -> 0 < a / R * 100.
Proof.
  intros HR Ha.
  assert (0 < a / R) by (apply Qlt_shift_div_l; lra).
  lra.
Qed.

Lemma pct_neg (a R : Q) : 0 < R -> a < 0 -> a / R * 100 < 0.
Proof.
  intros HR Ha.
  assert (a / R < 0) by (apply Qlt_shift_div_r; lra).
  lra.
Qed.

End Percent.

Section Vertical.

Import Types EventItem.

Local Open Scope Q_scope.

(** The two outcomes of the clamp: the part before the visible start is
    cut off, or nothing is. *)
Lemma clamp_cases (body : Body) (int : Internal) :
  let newStart := default 0 (startMinutes int) - start body in
  let capped := Qmin (duration int) (end_ body - start body) in
  (newStart < 0 /\ clamp body int = (capped + newStart, 0))
  \/ (0 <= newStart /\ clamp body int = (capped, newStart)).
Proof.
  intros newStart capped. unfold clamp. fold newStart. fold capped.
  destruct (Qltb newStart 0) eqn:E.
  - left. split; [now apply Qltb_true | reflexivity].
  - right. split; [now apply Qltb_false | reflexivity].
Qed.

Lemma data_clamp (env : DateEnv) (body : Body) (int : Internal)
    (startUnix : Z) (vis : gmap Z VisibleDate) :
  (totalDuration (data env body int startUnix vis),
   d_startMinutes (data env body int startUnix vis)) = clamp body int.
Proof. unfold data. now destruct (clamp body int). Qed.

Context {R Node Gesture : Type}.

Variable env : DateEnv.
Variable body : Body.
Variable props : Props R Node Gesture.

Let int := _internal (event props).
Let d := data env body int (p_startUnix props) (visibleDates props).
Let st := style (render env body props).
Let timeRange := end_ body - start body.

Lemma style_vertical :
  top st = (d_startMinutes d + 1) / timeRange * 100
  /\ height st = (totalDuration d - 1) / timeRange * 100.
Proof. split; reflexivity. Qed.

(** C4, as the code has it: the clamped duration is at most
    [end - start]; the top percentage is
    [(clamped start + 1) / timeRange * 100] and the height percentage
    [(totalDuration - 1) / timeRange * 100]; and for an event that lies
    within the visible hours and lasts more than one minute, both are
    strictly between 0 and 100, and the minutes they are taken from,
    [(clamped start + 1) + (totalDuration - 1)], are at most the range.
    (Nothing is stated of the sum of the two percentages themselves: as
    the code computes them, in doubles, it can pass 100 by rounding, see
    [percentages_in_doubles_pass_100].) *)
Theorem event_vertical_geometry :
  totalDuration d <= end_ body - start body
  /\ top st == (d_startMinutes d + 1) / timeRange * 100
  /\ height st == (totalDuration d - 1) / timeRange * 100
  /\ (start body <= default 0 (startMinutes int) ->
      default 0 (startMinutes int) + duration int <= end_ body ->
      1 < duration int ->
      (0 < top st /\ top st < 100)
      /\ (0 < height st /\ height st < 100)
      /\ (d_startMinutes d + 1) + (totalDuration d - 1) <= timeRange).
Proof.
  destruct style_vertical as [Htop Hheight]. rewrite Htop, Hheight.
  pose proof (data_clamp env body int (p_startUnix props) (visibleDates props)) as Hd.
  fold d in Hd.
  pose proof (Q.le_min_r (duration int) (end_ body - start body)) as Hcap.
  destruct (Q.min_spec (duration int) (end_ body - start body)) as [[Hlt Hmin]|[Hle Hmin]];
    destruct (clamp_cases body int) as [[Hns Hc]|[Hns Hc]];
    rewrite Hc in Hd; injection Hd as Htd Hsm; rewrite Htd, Hsm;
    (split; [lra|]); (split; [reflexivity|]); (split; [reflexivity|]);
    intros H1 H2 H3; fold timeRange;
    assert (0 < timeRange) by (unfold timeRange; lra);
    (split; [split; [apply pct_pos | apply pct_lt] |
     split; [split; [apply pct_pos | apply pct_lt] | ]]);
    unfold timeRange; lra.
Qed.

(** C10, as the code has it: for an event whose visible portion is
    empty ([startMinutes + duration] at most the visible start) on a
    non-empty range of visible hours, the total duration is at most 0,
    and negative when [startMinutes + duration] is before the visible
    start; it is not clamped at zero, and the height percentage
    [(totalDuration - 1) / timeRange * 100] is negative. *)
Theorem empty_visible_portion :
  default 0 (startMinutes int) + duration int <= start body ->
  start body < end_ body ->
  totalDuration d <= 0
  /\ (default 0 (startMinutes int) + duration int < start body ->
      totalDuration d < 0)
  /\ height st == (totalDuration d - 1) / timeRange * 100
  /\ height st < 0.
Proof.
  intros Hempty Hrange.
  destruct style_vertical as [_ Hheight]. rewrite Hheight.
  pose proof (data_clamp env body int (p_startUnix props) (visibleDates props)) as Hd.
  fold d in Hd.
  pose proof (Q.le_min_l (duration int) (end_ body - start body)) as Hcap.
  assert (0 < timeRange) as HR by (unfold timeRange; lra).
  destruct (clamp_cases body int) as [[Hns Hc]|[Hns Hc]];
    rewrite Hc in Hd; injection Hd as Htd Hsm; rewrite Htd;
    (split; [lra|]); (split; [intros; lra|]); (split; [reflexivity|]);
    apply pct_neg; [exact HR | lra | exact HR | lra].
Qed.

End Vertical.

Lemma event_vertical_geometry_witness :
  let st := EventItem.style (EventItem.render env0 sampleBody (propsOf sampleInternal)) in
  let d := EventItem.data env0 sampleBody sampleInternal 0 ∅ in
  ((0 <= 600)%Q /\ (600 + 60 <= 1440)%Q /\ (1 < 60)%Q)
  /\ (0 < EventItem.top st /\ EventItem.top st < 100)%Q
  /\ (0 < EventItem.height st /\ EventItem.height st < 100)%Q
  /\ ((EventItem.d_startMinutes d + 1) + (EventItem.totalDuration d - 1) <= 1440 - 0)%Q.
Proof.
  assert ((0 <= 600)%Q /\ (600 + 60 <= 1440)%Q /\ (1 < 60)%Q) as H
    by (repeat split; vm_compute; discriminate).
  split; [exact H|].
  destruct H as (H1 & H2 & H3).
  exact (proj2 (proj2 (proj2
    (event_vertical_geometry env0 sampleBody (propsOf sampleInternal)))) H1 H2 H3).
Defined.

(** C4 as stated fails: a one-minute event inside the visible hours has
    the height percentage [(1 - 1) / 1440 * 100 = 0], which is not
    strictly between 0 and 100. *)
Lemma one_minute_event_height_zero :
  let st := EventItem.style (EventItem.render env0 sampleBody (propsOf oneMinuteInternal)) in
  (EventItem.start sampleBody <= 600)%Q
  /\ (600 + Types.duration oneMinuteInternal <= EventItem.end_ sampleBody)%Q
  /\ (EventItem.height st == 0)%Q
  /\ ~ (0 < EventItem.height st)%Q.
Proof.
  repeat split; vm_compute; discriminate.
Qed.

(** The event from 00:04 to 24:00 on visible hours 00:00 to 24:00 lies
    within the visible hours and lasts more than a minute; its exact
    percentages, [5 / 1440 * 100] and [1435 / 1440 * 100], sum to 100,
    but evaluated in doubles as the code evaluates them they sum to
    100.00000000000001, which is more than 100. *)
Lemma percentages_in_doubles_pass_100 :
  let d := EventItem.data env0 sampleBody longInternal 0 ∅ in
  let st := EventItem.style (EventItem.render env0 sampleBody (propsOf longInternal)) in
  ((EventItem.start sampleBody <= 4)%Q
   /\ (4 + Types.duration longInternal <= EventItem.end_ sampleBody)%Q
   /\ (1 < Types.duration longInternal)%Q)
  /\ (EventItem.d_startMinutes d == 4)%Q
  /\ (EventItem.totalDuration d == 1436)%Q
  /\ (EventItem.top st + EventItem.height st == 100)%Q
  /\ PrimFloat.ltb (EventItemDoubles.number 100)
        (PrimFloat.add (EventItemDoubles.top 4 1440)
                       (EventItemDoubles.height 1436 1440))
     = true.
Proof.
  repeat split; vm_compute; try discriminate; reflexivity.
Qed.

Lemma empty_visible_portion_witness :
  let r := EventItem.render env0 officeBody (propsOf earlyInternal) in
  ((480 + 60 <= 540)%Q /\ (540 < 1020)%Q)
  /\ (EventItem.height (EventItem.style r) < 0)%Q.
Proof.
  assert ((480 + 60 <= 540)%Q /\ (540 < 1020)%Q) as H
    by (split; vm_compute; [discriminate | reflexivity]).
  split; [exact H|].
  destruct H as (H1 & H2).
  exact (proj2 (proj2 (proj2
    (empty_visible_portion env0 officeBody (propsOf earlyInternal) H1 H2)))).
Defined.

(** C10 as stated fails: an event from 08:00 to 09:00 against visible
    hours that start at 09:00 has an empty visible portion
    ([480 + 60 <= 540]), and its total duration is
    [min(60, 480) + (480 - 540) = 0], which is not negative. *)
Lemma early_event_duration_zero :
  let d := EventItem.data env0 officeBody earlyInternal 0 ∅ in
  (default 0 (Types.startMinutes earlyInternal) + Types.duration earlyInternal
   <= EventItem.start officeBody)%Q
  /\ (EventItem.totalDuration d == 0)%Q
  /\ ~ (EventItem.totalDuration d < 0)%Q.
Proof.
  repeat split; vm_compute; discriminate.
Qed.

(** ** Horizontal geometry of two overlapping events *)

Section Overlap.

Import Types EventItem.

Local Open Scope Q_scope.

Variable body : Body.
Variable totalResources : option Z.

Let A := availableWidth body totalResources.
Let s := overlapEventsSpacing body.

(** Width fraction and width of an event in one of two overlap columns. *)
Lemma widthPercent_half (int : Internal) :
  total int = Some 2%Z -> columnSpan int = Some 1%Z ->
  ~ A == 0 ->
  widthPercent body int totalResources == (A / 2 - s / 2) / A
  /\ eventWidth body int totalResources == A / 2 - s / 2.
Proof.
  intros Ht Hc HA. unfold eventWidth, widthPercent. rewrite Ht, Hc.
  change (truthyZ (Some 2%Z) && truthyZ (Some 1%Z)) with true.
  change (inject_Z (numZ (Some 2%Z))) with 2.
  change (inject_Z (numZ (Some 1%Z))) with 1.
  cbv zeta iota. fold A. fold s.
  split; field; exact HA.
Qed.

(** C5. For two packed events of one time slot laid out in overlap
    columns with [total = 2] and [columnSpan = 1], at the indices 0 and
    1 of the same day and resource column, on a positive available width
    and a spacing that is not negative: each width fraction is
    [eventWidth / availableWidth] with
    [eventWidth = availableWidth / 2 - overlapEventsSpacing / 2]; the two
    fractions sum to at most 1; the event of index 0 gets no offset
    ([index / columnSpan = 0]) and the event of index 1 the offset
    [(eventWidth + overlapEventsSpacing) * (1 / 1)], so the second starts
    where the first ends plus the spacing, and both fit in the available
    width. *)
Theorem two_overlapping_events (int0 int1 : Internal) (diffDays : Z) :
  total int0 = Some 2%Z -> columnSpan int0 = Some 1%Z -> index int0 = Some 0%Z ->
  total int1 = Some 2%Z -> columnSpan int1 = Some 1%Z -> index int1 = Some 1%Z ->
  truthyQ (xOffsetPercentage int0) = false ->
  truthyQ (xOffsetPercentage int1) = false ->
  resourceIndex int0 = resourceIndex int1 ->
  0 < A -> 0 <= s ->
  let w0 := widthPercent body int0 totalResources in
  let w1 := widthPercent body int1 totalResources in
  let e0 := eventWidth body int0 totalResources in
  let e1 := eventWidth body int1 totalResources in
  let x0 := eventPosX body int0 totalResources diffDays in
  let x1 := eventPosX body int1 totalResources diffDays in
  w0 == (A / 2 - s / 2) / A
  /\ w1 == (A / 2 - s / 2) / A
  /\ w0 + w1 <= 1
  /\ x1 == x0 + (e1 + s) * (1 / 1)
  /\ x0 + e0 + s == x1
  /\ x0 + e0 <= x1
  /\ x1 + e1 == x0 + A.
Proof.
  intros Ht0 Hc0 Hi0 Ht1 Hc1 Hi1 Hx0 Hx1 Hr HA Hs w0 w1 e0 e1 x0 x1.
  assert (~ A == 0) as HA0 by lra.
  destruct (widthPercent_half int0 Ht0 Hc0 HA0) as [Hw0 He0].
  destruct (widthPercent_half int1 Ht1 Hc1 HA0) as [Hw1 He1].
  fold w0 in Hw0. fold w1 in Hw1. fold e0 in He0. fold e1 in He1.
  assert (x1 = x0 + (e1 + s) * (1 / 1)) as Hx.
  { subst x0 x1 e1 s. unfold eventPosX.
    rewrite Hx0, Hx1, Hc0, Hi0, Hc1, Hi1, Hr. reflexivity. }
  assert (A / 2 - s / 2 == (A - s) * (1 # 2)) as Hew by field.
  rewrite Hew in He0, He1, Hw0, Hw1.
  assert ((A - s) * (1 # 2) / A <= 1 # 2) as Hhalf
    by (apply Qle_shift_div_r; lra).
  assert (e1 * (1 / 1) == e1 /\ s * (1 / 1) == s) as [H1 H2] by (split; field).
  rewrite Hx, Hew. repeat split; try lra.
Qed.

End Overlap.

Lemma two_overlapping_events_witness :
  let w0 := EventItem.widthPercent sampleBody sampleInternal None in
  let w1 := EventItem.widthPercent sampleBody secondInternal None in
  let x0 := EventItem.eventPosX sampleBody sampleInternal None 0 in
  let x1 := EventItem.eventPosX sampleBody secondInternal None 0 in
  ((0 < EventItem.availableWidth sampleBody None)%Q
   /\ (0 <= EventItem.overlapEventsSpacing sampleBody)%Q)
  /\ (w0 + w1 <= 1)%Q
  /\ (x0 + EventItem.eventWidth sampleBody sampleInternal None <= x1)%Q.
Proof.
  assert ((0 < EventItem.availableWidth sampleBody None)%Q
          /\ (0 <= EventItem.overlapEventsSpacing sampleBody)%Q) as H
    by (split; vm_compute; [reflexivity | discriminate]).
  split; [exact H|].
  destruct H as (H1 & H2).
  pose proof (two_overlapping_events sampleBody None sampleInternal secondInternal 0
                eq_refl eq_refl eq_refl eq_refl eq_refl eq_refl eq_refl eq_refl
                eq_refl H1 H2) as W.
  cbv zeta in W. split; [exact (proj1 (proj2 (proj2 W)))|].
  exact (proj1 (proj2 (proj2 (proj2 (proj2 (proj2 W)))))).
Defined.

(** ** The day offset of the event block *)

Section DayOffset.

Import Types EventItem.

Variable env : DateEnv.
Variable visibleDates : gmap Z VisibleDate.










End DayOffset.


Lemma renderTimeSlots_page_witness :
  js_index (CalendarBody.visibleDatesArray oneWeekExtra) (1 * CalendarBody.columns oneWeekExtra)
  = Some 1708041600000
  /\ exists props,
       CalendarBody._renderTimeSlots monthClosure 1 oneWeekExtra
       = Some (CalendarBody.MonthViewBodyElement props)
       /\ MonthViewBody.dateUnix props = 1708041600000.
Proof.
  split; [reflexivity|].
  eexists. split.
  - exact (proj1 (proj1 (renderTimeSlots_page monthClosure 1 oneWeekExtra)
                   1708041600000 eq_refl ltac:(discriminate)) eq_refl).
  - reflexivity.
Defined.


(** Across a day of 23 hours the two starts are 47 hours apart; with
    every day shown, [diffDays] is then [floor(47 h / 24 h) = 1] for an
    event two calendar days after the viewport start.  The date values
    of this development have days of 24 hours, so that here the event's
    start is not the start of a day. *)
Example diffDays_47_hours_apart :
  EventItem.d_diffDays
    (EventItem.data env0 sampleBody fortySevenHoursLater (day_ms 0) bothShown) = 1.
Proof. vm_compute. reflexivity. Qed.
